(** * python-openid: the consumer's view of an association

    A shallow embedding of [openid/association.py] (class [Association])
    and of the collaborators it calls ([oidutil], [cryptutil], the Python
    builtins [str], [int] and the wall clock), followed by the properties
    of the association's construction, expiry, serialization and signing.

    Python strings of this code base are byte strings: they are modelled
    as [string] (a list of 8-bit [ascii]).  Python integers are unbounded:
    they are modelled as [Z].  A dictionary is a [gmap string string].
    A raised exception is the [Raise] branch of the [result] monad. *)

From Stdlib Require Import ZArith NArith Ascii String List Lia.
From Stdlib Require Import Decimal DecimalString DecimalZ.
From stdpp Require Import gmap strings list.

Open Scope string_scope.
Open Scope list_scope.

(* ===================================================================== *)
(** * Exceptions and the error monad                                      *)
(* ===================================================================== *)

(** The exceptions this module can raise.  [ValueError], [KeyError],
    [NameError] and [AssertionError] are Python's own; a [ValueError]
    carries its format string and the arguments of the format, unformatted.
    [InvalidCharacterError], [MalformedLineError] and [BinasciiError] are
    the error kinds of the collaborators in [oidutil]. *)
Inductive exn : Type :=
| ValueError (fmt : string) (args : list string)
| KeyError (key : string)
| NameError (name : string)
| AssertionError
| InvalidCharacterError
| MalformedLineError
| BinasciiError.

Inductive result (A : Type) : Type :=
| Return (a : A)
| Raise (e : exn).
Arguments Return {A} a.
Arguments Raise {A} e.

Definition bind {A B : Type} (m : result A) (k : A -> result B) : result B :=
  match m with
  | Return a => k a
  | Raise e => Raise e
  end.

Notation "x <- m ;; k" := (bind m (fun x => k))
  (at level 100, m at next level, right associativity).

(* ===================================================================== *)
(** * Python builtins used by the module                                  *)
(* ===================================================================== *)

Module builtins.

Definition LF : ascii := ascii_of_nat 10.

(** [c in s] for a one-character [c]. *)
Fixpoint contains (c : ascii) (s : string) : bool :=
  match s with
  | EmptyString => false
  | String a r => Ascii.eqb a c || contains c r
  end.

(** [s.split(sep)] for a one-character separator: never empty, one more
    piece than there are separators. *)
Fixpoint split (sep : ascii) (s : string) : list string :=
  match s with
  | EmptyString => [""]
  | String a r =>
      if Ascii.eqb a sep then "" :: split sep r
      else match split sep r with
           | [] => [String a ""]
           | w :: ws => String a w :: ws
           end
  end.

(** [''.join(l)]. *)
Fixpoint join (l : list string) : string :=
  match l with
  | [] => ""
  | s :: r => s +:+ join r
  end.

(** [sep.join(l)] for a one-character separator. *)
Fixpoint join_with (sep : ascii) (l : list string) : string :=
  match l with
  | [] => ""
  | [s] => s
  | s :: r => s +:+ String sep (join_with sep r)
  end.

(** [str(n)] for an integer: decimal digits, a leading [-] when
    negative, no leading zeros. *)
Definition str (n : Z) : string := NilEmpty.string_of_int (Z.to_int n).

Definition is_space (c : ascii) : bool :=
  let n := nat_of_ascii c in
  Nat.eqb n 32 || (Nat.leb 9 n && Nat.leb n 13).

Fixpoint lstrip (s : string) : string :=
  match s with
  | EmptyString => ""
  | String a r => if is_space a then lstrip r else s
  end.

Fixpoint rstrip (s : string) : string :=
  match s with
  | EmptyString => ""
  | String a r =>
      match rstrip r with
      | EmptyString => if is_space a then "" else String a ""
      | r' => String a r'
      end
  end.

Definition strip (s : string) : string := rstrip (lstrip s).

Definition is_digit (c : ascii) : bool :=
  let n := nat_of_ascii c in
  Nat.leb 48 n && Nat.leb n 57.

(** Every character of [s] is a decimal digit. *)
Fixpoint all_digits (s : string) : bool :=
  match s with
  | EmptyString => true
  | String a r => is_digit a && all_digits r
  end.

Definition invalid_literal (s : string) : exn :=
  ValueError "invalid literal for int() with base 10: %r" [s].

(** The digits of an integer literal: at least one, all decimal. *)
Definition int_digits (s d : string) : result Z :=
  match d with
  | EmptyString => Raise (invalid_literal s)
  | _ =>
      match NilEmpty.uint_of_string d with
      | Some u => Return (Z.of_uint u)
      | None => Raise (invalid_literal s)
      end
  end.

(** [int(s)] for a string: surrounding whitespace is ignored, then an
    optional sign and decimal digits; anything else is a [ValueError]. *)
Definition int (s : string) : result Z :=
  match strip s with
  | String "-" d => n <- int_digits s d ;; Return (- n)%Z
  | String "+" d => int_digits s d
  | d => int_digits s d
  end.

End builtins.

(* ===================================================================== *)
(** * [openid.oidutil]: the ordered key-value codec and base64            *)
(* ===================================================================== *)

Module oidutil.
Import builtins.

(** Modelled from the spec: [oidutil.seqToKV], the codec's encode
    operation, is not among the source files.  Neither key nor value may
    contain a newline and a key may not contain a colon, otherwise the
    call fails with [InvalidCharacterError]; each pair is rendered as
    [key:value\n] and the lines are concatenated in input order.  The
    spec gives [strict] no effect on encoding. *)
Fixpoint seqToKV (seq : list (string * string)) (strict : bool)
  : result string :=
  match seq with
  | [] => Return ""
  | (k, v) :: rest =>
      if contains LF k || contains LF v || contains ":" k
      then Raise InvalidCharacterError
      else
        tail <- seqToKV rest strict ;;
        Return (k +:+ ":" +:+ v +:+ String LF tail)
  end.

(** Part of [kvToSeq] below: the input split on newlines, without the
    empty last piece that a final terminator leaves. *)
Fixpoint drop_trailing_empty (lines : list string) : list string :=
  match lines with
  | [] => []
  | [l] => match l with EmptyString => [] | _ => [l] end
  | l :: rest => l :: drop_trailing_empty rest
  end.

(** Part of [kvToSeq] below: the lines turned into pairs; an empty line
    is passed over. *)
Fixpoint parse_lines (strict : bool) (lines : list string)
  : result (list (string * string)) :=
  match lines with
  | [] => Return []
  | EmptyString :: rest => parse_lines strict rest
  | l :: rest =>
      match split ":" l with
      | [k; v] =>
          pairs <- parse_lines strict rest ;;
          Return ((k, v) :: pairs)
      | _ =>
          if strict then Raise MalformedLineError
          else parse_lines strict rest
      end
  end.

(** Modelled from the spec: [oidutil.kvToSeq], the codec's decode
    operation, is not among the source files.  The input is split on
    newlines and a trailing empty line is ignored; each non-empty line
    must contain exactly one colon, which separates key from value; a
    line with no colon or with more than one fails with
    [MalformedLineError] in strict mode and is skipped otherwise; the
    pairs come out in line order. *)
Definition kvToSeq (data : string) (strict : bool)
  : result (list (string * string)) :=
  parse_lines strict (drop_trailing_empty (split LF data)).

(** The format's character constraints on one pair: no newline in key
    or value (encoding checks it), no colon in the key (encoding checks
    it) and no colon in the value (the callers' side of the contract:
    the format has no escaping and a decoded line has exactly one
    colon). *)
Definition kv_safe (p : string * string) : Prop :=
  contains LF (fst p) = false /\ contains ":" (fst p) = false /\
  contains LF (snd p) = false /\ contains ":" (snd p) = false.

(** One line of the encoding, without its terminator. *)
Definition kv_line (p : string * string) : string :=
  fst p +:+ ":" +:+ snd p.

(** The text of the encoding. *)
Definition kv_text (pairs : list (string * string)) : string :=
  join (map (fun p => kv_line p +:+ String LF "") pairs).

(** A group of six bits, most significant first. *)
Definition sextet : Type := (bool * bool * bool * bool * bool * bool)%type.

Definition sextet_index (x : sextet) : nat :=
  let '(b5, b4, b3, b2, b1, b0) := x in
  N.to_nat (N_of_digits [b0; b1; b2; b3; b4; b5]).

Definition sextet_of_index (n : nat) : sextet :=
  let i := N.of_nat n in
  (N.testbit i 5, N.testbit i 4, N.testbit i 3,
   N.testbit i 2, N.testbit i 1, N.testbit i 0).

Definition b64_alphabet : string :=
  "ABCDEFGHIJKLMNOPQRSTUVWXYZabcdefghijklmnopqrstuvwxyz0123456789+/".

Definition b64_pad : ascii := "=".

Definition b64_char (x : sextet) : ascii :=
  match String.get (sextet_index x) b64_alphabet with
  | Some c => c
  | None => b64_pad
  end.

Fixpoint index_of (c : ascii) (s : string) : option nat :=
  match s with
  | EmptyString => None
  | String a r =>
      if Ascii.eqb a c then Some 0%nat
      else match index_of c r with
           | Some i => Some (S i)
           | None => None
           end
  end.

Definition b64_value (c : ascii) : result sextet :=
  match index_of c b64_alphabet with
  | Some i => Return (sextet_of_index i)
  | None => Raise BinasciiError
  end.

(** Modelled from the spec: [oidutil.toBase64], the binary-to-text
    encoder, is not among the source files.  The spec names a
    base64-style encoding; this is base64 with the standard alphabet,
    [=] padding and no line break: three bytes become four characters. *)
Fixpoint toBase64 (s : string) : string :=
  match s with
  | EmptyString => ""
  | String (Ascii a0 a1 a2 a3 a4 a5 a6 a7) EmptyString =>
      String (b64_char (a7, a6, a5, a4, a3, a2))
     (String (b64_char (a1, a0, false, false, false, false))
     (String b64_pad (String b64_pad "")))
  | String (Ascii a0 a1 a2 a3 a4 a5 a6 a7)
      (String (Ascii b0 b1 b2 b3 b4 b5 b6 b7) EmptyString) =>
      String (b64_char (a7, a6, a5, a4, a3, a2))
     (String (b64_char (a1, a0, b7, b6, b5, b4))
     (String (b64_char (b3, b2, b1, b0, false, false))
     (String b64_pad "")))
  | String (Ascii a0 a1 a2 a3 a4 a5 a6 a7)
      (String (Ascii b0 b1 b2 b3 b4 b5 b6 b7)
         (String (Ascii c0 c1 c2 c3 c4 c5 c6 c7) rest)) =>
      String (b64_char (a7, a6, a5, a4, a3, a2))
     (String (b64_char (a1, a0, b7, b6, b5, b4))
     (String (b64_char (b3, b2, b1, b0, c7, c6))
     (String (b64_char (c5, c4, c3, c2, c1, c0))
        (toBase64 rest))))
  end.

(** The bytes of one group of four characters; [n] says how many of the
    three bytes are data (the others come from padding). *)
Definition b64_group (n : nat) (x1 x2 x3 x4 : sextet) : string :=
  let '(a7, a6, a5, a4, a3, a2) := x1 in
  let '(a1, a0, b7, b6, b5, b4) := x2 in
  let '(b3, b2, b1, b0, c7, c6) := x3 in
  let '(c5, c4, c3, c2, c1, c0) := x4 in
  let a := Ascii a0 a1 a2 a3 a4 a5 a6 a7 in
  let b := Ascii b0 b1 b2 b3 b4 b5 b6 b7 in
  let c := Ascii c0 c1 c2 c3 c4 c5 c6 c7 in
  match n with
  | 1%nat => String a ""
  | 2%nat => String a (String b "")
  | _ => String a (String b (String c ""))
  end.

Definition zero_sextet : sextet :=
  (false, false, false, false, false, false).

(** Modelled from the spec: [oidutil.fromBase64], the text-to-binary
    decoder, is not among the source files.  It reads groups of four
    characters of the alphabet; only the last group may end in one or
    two [=]; anything else fails with [BinasciiError]. *)
Fixpoint fromBase64 (s : string) : result string :=
  match s with
  | EmptyString => Return ""
  | String c1 (String c2 (String c3 (String c4 rest))) =>
      x1 <- b64_value c1 ;;
      x2 <- b64_value c2 ;;
      match rest with
      | EmptyString =>
          if Ascii.eqb c4 b64_pad then
            if Ascii.eqb c3 b64_pad
            then Return (b64_group 1 x1 x2 zero_sextet zero_sextet)
            else x3 <- b64_value c3 ;;
                 Return (b64_group 2 x1 x2 x3 zero_sextet)
          else
            x3 <- b64_value c3 ;;
            x4 <- b64_value c4 ;;
            Return (b64_group 3 x1 x2 x3 x4)
      | _ =>
          x3 <- b64_value c3 ;;
          x4 <- b64_value c4 ;;
          tail <- fromBase64 rest ;;
          Return (b64_group 3 x1 x2 x3 x4 +:+ tail)
      end
  | _ => Raise BinasciiError
  end.

End oidutil.

(* ===================================================================== *)
(** * [openid.cryptutil]: HMAC-SHA1                                       *)
(* ===================================================================== *)

Module cryptutil.

(** SHA-1 (FIPS 180-1), the digest under [hmacSha1] below.  32-bit words
    are [Z] in [0, 2^32); sums wrap around. *)
Definition wrap32 (x : Z) : Z := (x mod 4294967296)%Z.

Definition rotl (n x : Z) : Z :=
  Z.lor (wrap32 (Z.shiftl x n)) (Z.shiftr x (32 - n)).

Definition not32 (x : Z) : Z := Z.lxor x 4294967295.

Definition bytes_of_string (s : string) : list Z :=
  map (fun c => Z.of_N (N_of_ascii c)) (list_ascii_of_string s).

Definition string_of_bytes (l : list Z) : string :=
  string_of_list_ascii (map (fun b => ascii_of_N (Z.to_N b)) l).

(** Big-endian bytes of a word, [n] of them. *)
Fixpoint be_bytes (n : nat) (x : Z) : list Z :=
  match n with
  | O => []
  | S m => be_bytes m (Z.shiftr x 8) ++ [Z.land x 255]
  end.

Fixpoint be_words (fuel : nat) (bytes : list Z) : list Z :=
  match fuel, bytes with
  | S f, b0 :: b1 :: b2 :: b3 :: rest =>
      (Z.shiftl b0 24 + Z.shiftl b1 16 + Z.shiftl b2 8 + b3)%Z
        :: be_words f rest
  | _, _ => []
  end.

(** The message followed by the bit [1], zeros up to 56 modulo 64 and
    the bit length on 8 bytes. *)
Definition sha1_pad (msg : list Z) : list Z :=
  let len := length msg in
  let zeros := ((119 - len mod 64) mod 64)%nat in
  msg ++ [128%Z] ++ repeat 0%Z zeros ++ be_bytes 8 (8 * Z.of_nat len).

Record sha1_state : Type := Sha1State {
  h0 : Z; h1 : Z; h2 : Z; h3 : Z; h4 : Z
}.

Definition sha1_init : sha1_state :=
  Sha1State 1732584193 4023233417 2562383102 271733878 3285377520.

Definition sha1_f (t : nat) (b c d : Z) : Z :=
  if (t <? 20)%nat then Z.lor (Z.land b c) (Z.land (not32 b) d)
  else if (t <? 40)%nat then Z.lxor (Z.lxor b c) d
  else if (t <? 60)%nat then
    Z.lor (Z.lor (Z.land b c) (Z.land b d)) (Z.land c d)
  else Z.lxor (Z.lxor b c) d.

Definition sha1_k (t : nat) : Z :=
  if (t <? 20)%nat then 1518500249
  else if (t <? 40)%nat then 1859775393
  else if (t <? 60)%nat then 2400959708
  else 3395469782.

(** [n] rounds from round [t]; [w] is the window [W(t) .. W(t+15)] of
    the message schedule. *)
Fixpoint sha1_rounds (n t : nat) (w : list Z) (s : sha1_state)
  : sha1_state :=
  match n with
  | O => s
  | S m =>
      let wt := nth 0 w 0%Z in
      let next :=
        rotl 1 (Z.lxor (Z.lxor (Z.lxor (nth 13 w 0) (nth 8 w 0))
                          (nth 2 w 0)) wt)%Z in
      let temp :=
        wrap32 (rotl 5 (h0 s) + sha1_f t (h1 s) (h2 s) (h3 s)
                + h4 s + sha1_k t + wt) in
      sha1_rounds m (S t) (tl w ++ [next])
        (Sha1State temp (h0 s) (rotl 30 (h1 s)) (h2 s) (h3 s))
  end.

Definition sha1_block (s : sha1_state) (block : list Z) : sha1_state :=
  let r := sha1_rounds 80 0 (be_words 16 block) s in
  Sha1State (wrap32 (h0 s + h0 r)) (wrap32 (h1 s + h1 r))
            (wrap32 (h2 s + h2 r)) (wrap32 (h3 s + h3 r))
            (wrap32 (h4 s + h4 r)).

Fixpoint sha1_blocks (n : nat) (bytes : list Z) (s : sha1_state)
  : sha1_state :=
  match n with
  | O => s
  | S m => sha1_blocks m (skipn 64 bytes) (sha1_block s (firstn 64 bytes))
  end.

Definition sha1_bytes (msg : list Z) : list Z :=
  let padded := sha1_pad msg in
  let s := sha1_blocks (length padded / 64) padded sha1_init in
  be_bytes 4 (h0 s) ++ be_bytes 4 (h1 s) ++ be_bytes 4 (h2 s)
    ++ be_bytes 4 (h3 s) ++ be_bytes 4 (h4 s).

Definition sha1 (msg : string) : string :=
  string_of_bytes (sha1_bytes (bytes_of_string msg)).

Definition hmac_block_size : nat := 64.

(** Modelled from the spec: [cryptutil.hmacSha1], the keyed-hash
    primitive, is not among the source files.  It is HMAC with SHA-1:
    a key longer than a block is hashed first, the key is padded with
    zeros to a block, and the digest is
    [H((key xor opad) + H((key xor ipad) + text))]. *)
Definition hmacSha1 (key text : string) : string :=
  let k := bytes_of_string key in
  let k := if (hmac_block_size <? length k)%nat then sha1_bytes k else k in
  let k := k ++ repeat 0%Z (hmac_block_size - length k) in
  let inner := sha1_bytes (map (Z.lxor 54) k ++ bytes_of_string text) in
  string_of_bytes (sha1_bytes (map (Z.lxor 92) k ++ inner)).

End cryptutil.

(* ===================================================================== *)
(** * [openid.association]                                                *)
(* ===================================================================== *)

Module Association.
Import builtins.

(** The names bound at the top of [association.py]: its three imports
    and its class.  A reference to a global name that is neither bound
    there nor a builtin raises [NameError]. *)
Definition module_globals : list string :=
  ["time"; "oidutil"; "cryptutil"; "Association"].

Definition lookup_global (name : string) : result unit :=
  if existsb (String.eqb name) module_globals then Return tt
  else Raise (NameError name).

(** An instance: its [__dict__] has exactly these five attributes. *)
Record t : Type := mk {
  handle : string;
  secret : string;
  issued : Z;
  lifetime : Z;
  assoc_type : string
}.

(** The ordering and name of keys as stored by serialize. *)
Definition assoc_keys : list string :=
  ["version"; "handle"; "secret"; "issued"; "lifetime"; "assoc_type"].

Definition unsupported_type : exn :=
  ValueError "HMAC-SHA1 is the only currently supported association type" [].

Definition __init__ (handle secret : string) (issued lifetime : Z)
    (assoc_type : string) : result t :=
  if negb (String.eqb assoc_type "HMAC-SHA1") then Raise unsupported_type
  else Return (mk handle secret issued lifetime assoc_type).

(** [now] is the value of [int(time.time())] at the call. *)
Definition fromExpiresIn (now : Z) (expires_in : Z) (handle secret : string)
    (assoc_type : string) : result t :=
  _ <- lookup_global "time" ;;
  let issued := now in
  let lifetime := expires_in in
  __init__ handle secret issued lifetime assoc_type.

(** [now] is the value of [int(time.time())] at the call. *)
Definition getExpiresIn (self : t) (now : Z) : result Z :=
  _ <- lookup_global "time" ;;
  Return (Z.max 0 (issued self + lifetime self - now)).

Definition __eq__ (self other : t) : bool :=
  String.eqb (handle self) (handle other)
  && String.eqb (secret self) (secret other)
  && Z.eqb (issued self) (issued other)
  && Z.eqb (lifetime self) (lifetime other)
  && String.eqb (assoc_type self) (assoc_type other).


(** The dictionary literal of [serialize]; entries are stored in the
    order they are written.  [issued] and [lifetime] are integers, on
    which [int] is the identity. *)
Definition serialize_data (self : t) : result (gmap string string) :=
  _ <- lookup_global "oidutil" ;;
  Return (<["assoc_type" := assoc_type self]>
         (<["lifetime" := str (lifetime self)]>
         (<["issued" := str (issued self)]>
         (<["secret" := oidutil.toBase64 (secret self)]>
         (<["handle" := handle self]>
         (<["version" := "2"]> ∅)))))).

(** The loop of [serialize]: [data[field_name]] for each key, in order. *)
Fixpoint serialize_loop (data : gmap string string) (names : list string)
  : result (list (string * string)) :=
  match names with
  | [] => Return []
  | field_name :: rest =>
      match data !! field_name with
      | None => Raise (KeyError field_name)
      | Some v =>
          pairs <- serialize_loop data rest ;;
          Return ((field_name, v) :: pairs)
      end
  end.

(** The six pairs of the serialized form, in the order of
    [assoc_keys]. *)
Definition field_pairs (self : t) : list (string * string) :=
  [("version", "2");
   ("handle", handle self);
   ("secret", oidutil.toBase64 (secret self));
   ("issued", str (issued self));
   ("lifetime", str (lifetime self));
   ("assoc_type", assoc_type self)].

(** [serialize] up to the call of the codec. *)
Definition serialize_pairs (self : t) : result (list (string * string)) :=
  data <- serialize_data self ;;
  if negb (Nat.eqb (size data) (length assoc_keys)) then Raise AssertionError
  else serialize_loop data assoc_keys.

Definition serialize (self : t) : result string :=
  pairs <- serialize_pairs self ;;
  _ <- lookup_global "oidutil" ;;
  oidutil.seqToKV pairs true.

Definition unexpected_keys (keys : list string) : exn :=
  ValueError "Unexpected key values: %r" keys.

Definition unknown_version (version : string) : exn :=
  ValueError "Unknown version: %r" [version].

Definition unpack_error : exn :=
  ValueError "wrong number of values to unpack" [].

Definition deserialize (assoc_s : string) : result t :=
  _ <- lookup_global "oidutil" ;;
  pairs <- oidutil.kvToSeq assoc_s true ;;
  let keys := map fst pairs in
  let values := map snd pairs in
  if decide (keys = assoc_keys) then
    match values with
    | [version; handle; secret; issued; lifetime; assoc_type] =>
        if negb (String.eqb version "2") then Raise (unknown_version version)
        else
          issued <- int issued ;;
          lifetime <- int lifetime ;;
          _ <- lookup_global "oidutil" ;;
          secret <- oidutil.fromBase64 secret ;;
          __init__ handle secret issued lifetime assoc_type
    | _ => Raise unpack_error
    end
  else Raise (unexpected_keys keys).

Definition sign (self : t) (pairs : list (string * string))
  : result string :=
  _ <- lookup_global "oidutil" ;;
  kv <- oidutil.seqToKV pairs false ;;
  _ <- lookup_global "cryptutil" ;;
  Return (cryptutil.hmacSha1 (secret self) kv).

(** The loop of [signDict]: [data[prefix + field]] for each field, in
    order. *)
Fixpoint signDict_loop (fields : list string) (data : gmap string string)
    (prefix : string) : result (list (string * string)) :=
  match fields with
  | [] => Return []
  | field :: rest =>
      match data !! (prefix +:+ field) with
      | None => Raise (KeyError (prefix +:+ field))
      | Some v =>
          pairs <- signDict_loop rest data prefix ;;
          Return ((field, v) :: pairs)
      end
  end.

Definition default_prefix : string := "openid.".

(** The last line refers to [oidUtil], which is not a name of the
    module: the reference is evaluated before the call of [sign]. *)
Definition signDict (self : t) (fields : list string)
    (data : gmap string string) (prefix : string) : result string :=
  pairs <- signDict_loop fields data prefix ;;
  _ <- lookup_global "oidUtil" ;;
  mac <- sign self pairs ;;
  Return (oidutil.toBase64 mac).

(** Lines [i] and [j] of a text exchanged. *)
Definition swap_lines (i j : nat) (text : string) : string :=
  let lines := split LF text in
  match lines !! i, lines !! j with
  | Some li, Some lj => join_with LF (<[i := lj]> (<[j := li]> lines))
  | _, _ => text
  end.

End Association.

(* ===================================================================== *)
(** * Properties                                                          *)
(* ===================================================================== *)

Import builtins.
Import oidutil (kv_safe, kv_line, kv_text).

#[local] Arguments String.append !s1 s2 / : simpl nomatch.

(** ** Construction *)

(** C2: the primary constructor succeeds exactly when the association
    type is ["HMAC-SHA1"] and then stores its five arguments verbatim; for
    every other type it raises the [ValueError] that says only HMAC-SHA1
    is supported.  The result depends on the five arguments alone. *)
Theorem C2_init_accepts_only_hmac_sha1
    (h s : string) (i l : Z) (ty : string) :
  (ty = "HMAC-SHA1" ->
   Association.__init__ h s i l ty = Return (Association.mk h s i l ty)) /\
  (ty <> "HMAC-SHA1" ->
   Association.__init__ h s i l ty = Raise Association.unsupported_type).
Proof.
  unfold Association.__init__. split; intros Hty.
  - subst ty. reflexivity.
  - apply String.eqb_neq in Hty. rewrite Hty. reflexivity.
Qed.

Lemma C2_init_witness :
  Association.__init__ "h" "s" 10 20 "HMAC-SHA1"
    = Return (Association.mk "h" "s" 10 20 "HMAC-SHA1") /\
  Association.__init__ "h" "s" 10 20 "HMAC-SHA256"
    = Raise Association.unsupported_type.
Proof.
  split.
  - apply (C2_init_accepts_only_hmac_sha1 "h" "s" 10 20 "HMAC-SHA1").
    reflexivity.
  - apply (C2_init_accepts_only_hmac_sha1 "h" "s" 10 20 "HMAC-SHA256").
    discriminate.
Defined.

(** ** Expiry *)

Lemma getExpiresIn_eq (a : Association.t) (now : Z) :
  Association.getExpiresIn a now
  = Return (Z.max 0 (Association.issued a + Association.lifetime a - now)).
Proof. reflexivity. Qed.

(** C3: at clock reading [now] the expiry query returns
    [max(0, issued + lifetime - now)]; the value is never negative, and of
    two readings the later one gives the smaller or equal value. *)
Theorem C3_getExpiresIn_max_nonneg_monotone (a : Association.t) (now : Z) :
  Association.getExpiresIn a now
    = Return (Z.max 0 (Association.issued a + Association.lifetime a - now))
  /\ (exists n, Association.getExpiresIn a now = Return n /\ (0 <= n)%Z)
  /\ (forall later n1 n2,
        (now <= later)%Z ->
        Association.getExpiresIn a now = Return n1 ->
        Association.getExpiresIn a later = Return n2 ->
        (n2 <= n1)%Z).
Proof.
  split; [apply getExpiresIn_eq |]. split.
  - eexists. split; [apply getExpiresIn_eq | lia].
  - intros later n1 n2 Hle H1 H2.
    rewrite getExpiresIn_eq in H1, H2.
    injection H1 as <-. injection H2 as <-. lia.
Qed.

Lemma C3_getExpiresIn_witness :
  let a := Association.mk "h1" "" 1000000000 3600 "HMAC-SHA1" in
  Association.getExpiresIn a 1000000100 = Return 3500%Z /\
  Association.getExpiresIn a 1000003600 = Return 0%Z /\
  (0 <= 3500)%Z.
Proof.
  intros a.
  pose proof (C3_getExpiresIn_max_nonneg_monotone a 1000000100)
    as (Heq & _ & Hmono).
  split; [exact Heq |]. split; [reflexivity |].
  apply (Hmono 1000003600%Z 3500%Z 0%Z); [lia | reflexivity | reflexivity].
Defined.

(** C10: the constructors do not look at the time fields.  For every
    integer [expires_in], also zero or negative, [fromExpiresIn] with type
    ["HMAC-SHA1"] returns an association issued at the clock reading with
    lifetime [expires_in]; the primary constructor accepts every [issued]
    and [lifetime]; and when [expires_in] is not positive the expiry query
    gives 0 at the reading of the construction and at every later one. *)
Theorem C10_fromExpiresIn_any_lifetime (now e : Z) (h s : string) :
  (forall i l, exists a,
      Association.__init__ h s i l "HMAC-SHA1" = Return a) /\
  exists a,
    Association.fromExpiresIn now e h s "HMAC-SHA1" = Return a /\
    Association.issued a = now /\ Association.lifetime a = e /\
    Association.handle a = h /\ Association.secret a = s /\
    Association.assoc_type a = "HMAC-SHA1" /\
    ((e <= 0)%Z ->
     forall later, (now <= later)%Z ->
       Association.getExpiresIn a later = Return 0%Z).
Proof.
  split.
  - intros i l. eexists. reflexivity.
  - exists (Association.mk h s now e "HMAC-SHA1").
    repeat (split; [reflexivity |]).
    intros He later Hlater. rewrite getExpiresIn_eq. simpl.
    f_equal. lia.
Qed.

Lemma C10_fromExpiresIn_witness :
  exists a,
    Association.fromExpiresIn 1000 (-5) "h" "s" "HMAC-SHA1" = Return a /\
    Association.getExpiresIn a 1000 = Return 0%Z.
Proof.
  destruct (C10_fromExpiresIn_any_lifetime 1000 (-5) "h" "s")
    as (_ & a & Hmk & _ & _ & _ & _ & _ & Hexp).
  exists a. split; [exact Hmk |].
  apply Hexp; lia.
Defined.

(** ** Deserialization: the checks on keys and version *)

Lemma deserialize_bad_keys (text : string) (pairs : list (string * string)) :
  oidutil.kvToSeq text true = Return pairs ->
  map fst pairs <> Association.assoc_keys ->
  Association.deserialize text
  = Raise (Association.unexpected_keys (map fst pairs)).
Proof.
  intros Hdec Hkeys. unfold Association.deserialize.
  simpl. rewrite Hdec. simpl.
  destruct (decide (map fst pairs = Association.assoc_keys)) as [He | _];
    [contradiction | reflexivity].
Qed.

(** C5: when the decoded keys are the six expected ones in order and the
    value decoded for [version] is not ["2"], [deserialize] raises the
    [ValueError] for an unknown version. *)
Theorem C5_deserialize_unknown_version
    (text : string) (pairs : list (string * string)) (version : string) :
  oidutil.kvToSeq text true = Return pairs ->
  map fst pairs = Association.assoc_keys ->
  pairs !! 0%nat = Some ("version", version) ->
  version <> "2" ->
  Association.deserialize text = Raise (Association.unknown_version version).
Proof.
  intros Hdec Hkeys H0 Hv. unfold Association.deserialize.
  simpl. rewrite Hdec. simpl.
  destruct (decide (map fst pairs = Association.assoc_keys)) as [_ | Hne];
    [| contradiction].
  destruct pairs as [| [k1 v1] [| [k2 v2] [| [k3 v3] [| [k4 v4]
    [| [k5 v5] [| [k6 v6] [| p7 rest]]]]]]]; try discriminate Hkeys.
  simpl in H0. injection H0 as _ ->. simpl.
  apply String.eqb_neq in Hv. rewrite Hv. reflexivity.
Qed.

Lemma C5_deserialize_witness :
  let text :=
    "version:3" +:+ String LF ("handle:h" +:+ String LF ("secret:" +:+
    String LF ("issued:1" +:+ String LF ("lifetime:2" +:+ String LF
    ("assoc_type:HMAC-SHA1" +:+ String LF ""))))) in
  Association.deserialize text = Raise (Association.unknown_version "3").
Proof.
  intros text.
  apply (C5_deserialize_unknown_version text
           [("version", "3"); ("handle", "h"); ("secret", "");
            ("issued", "1"); ("lifetime", "2"); ("assoc_type", "HMAC-SHA1")]).
  - reflexivity.
  - reflexivity.
  - reflexivity.
  - discriminate.
Defined.

(** ** Signing a named subset of a dictionary *)

Lemma signDict_loop_present
    (fields : list string) (data : gmap string string) (prefix : string) :
  (forall f, f ∈ fields -> is_Some (data !! (prefix +:+ f))) ->
  exists pairs,
    Association.signDict_loop fields data prefix = Return pairs /\
    map fst pairs = fields /\
    Forall2 (fun f v => data !! (prefix +:+ f) = Some v) fields (map snd pairs).
Proof.
  induction fields as [| f rest IH]; intros Hall.
  - exists []. repeat split. constructor.
  - destruct (Hall f) as [v Hv]; [left |].
    destruct IH as (pairs & Hloop & Hfst & Hsnd).
    { intros g Hg. apply Hall. right. exact Hg. }
    exists ((f, v) :: pairs). simpl. rewrite Hv, Hloop. simpl.
    repeat split.
    + f_equal. exact Hfst.
    + constructor; assumption.
Qed.

Lemma signDict_loop_missing
    (fields : list string) (data : gmap string string) (prefix : string) :
  (exists f, f ∈ fields /\ data !! (prefix +:+ f) = None) ->
  exists f, f ∈ fields /\ data !! (prefix +:+ f) = None /\
    Association.signDict_loop fields data prefix
    = Raise (KeyError (prefix +:+ f)).
Proof.
  induction fields as [| g rest IH]; intros (f & Hin & Hnone).
  - inversion Hin.
  - simpl. destruct (data !! (prefix +:+ g)) as [v |] eqn:Hg.
    + assert (Hrest : exists f, f ∈ rest /\ data !! (prefix +:+ f) = None).
      { exists f. split; [| exact Hnone].
        apply elem_of_cons in Hin as [-> | Hin]; [congruence | exact Hin]. }
      destruct (IH Hrest) as (f' & Hin' & Hnone' & Hloop).
      exists f'. split; [right; exact Hin' |]. split; [exact Hnone' |].
      rewrite Hloop. reflexivity.
    + exists g. split; [left |]. split; [exact Hg | reflexivity].
Qed.

(** C8: when every requested field, with the prefix prepended, is in the
    dictionary, the loop of [signDict] builds the ordered pairs, and the
    return statement then raises [NameError]: it names [oidUtil], while the
    module imports [oidutil].  No MAC is computed and nothing is returned. *)
Theorem C8_signDict_raises_NameError
    (a : Association.t) (fields : list string)
    (data : gmap string string) (prefix : string) :
  (forall f, f ∈ fields -> is_Some (data !! (prefix +:+ f))) ->
  (exists pairs,
     Association.signDict_loop fields data prefix = Return pairs /\
     map fst pairs = fields) /\
  Association.signDict a fields data prefix = Raise (NameError "oidUtil") /\
  (forall mac,
     Association.signDict a fields data prefix
     <> Return (oidutil.toBase64 mac)).
Proof.
  intros Hall.
  destruct (signDict_loop_present fields data prefix Hall)
    as (pairs & Hloop & Hfst & _).
  assert (Hraise : Association.signDict a fields data prefix
                   = Raise (NameError "oidUtil")).
  { unfold Association.signDict. rewrite Hloop. reflexivity. }
  split; [exists pairs; split; assumption |].
  split; [exact Hraise |].
  intros mac. rewrite Hraise. discriminate.
Qed.

(** C9: when some requested field, with the prefix prepended, is not in
    the dictionary, [signDict] raises [KeyError] for such a field (the
    first one in the order of the request); no signature is returned. *)
Theorem C9_signDict_missing_field
    (a : Association.t) (fields : list string)
    (data : gmap string string) (prefix : string) :
  (exists f, f ∈ fields /\ data !! (prefix +:+ f) = None) ->
  exists f, f ∈ fields /\ data !! (prefix +:+ f) = None /\
    Association.signDict a fields data prefix
    = Raise (KeyError (prefix +:+ f)).
Proof.
  intros Hmiss.
  destruct (signDict_loop_missing fields data prefix Hmiss)
    as (f & Hin & Hnone & Hloop).
  exists f. split; [exact Hin |]. split; [exact Hnone |].
  unfold Association.signDict. rewrite Hloop. reflexivity.
Qed.

(** ** Strings: membership and splitting *)

Lemma contains_app (c : ascii) (s1 s2 : string) :
  contains c (s1 +:+ s2) = contains c s1 || contains c s2.
Proof.
  induction s1 as [| a s1 IH]; simpl; [reflexivity |].
  rewrite IH. apply orb_assoc.
Qed.

Lemma contains_cons_false (c a : ascii) (s : string) :
  contains c (String a s) = false ->
  Ascii.eqb a c = false /\ contains c s = false.
Proof. simpl. intros H. apply orb_false_elim in H. exact H. Qed.

Lemma split_nonempty (c : ascii) (s : string) : split c s <> [].
Proof.
  destruct s as [| a s]; simpl; [discriminate |].
  destruct (Ascii.eqb a c); [discriminate |].
  destruct (split c s); discriminate.
Qed.

Lemma split_without_sep (c : ascii) (s : string) :
  contains c s = false -> split c s = [s].
Proof.
  induction s as [| a s IH]; simpl; intros H; [reflexivity |].
  apply orb_false_elim in H as [Ha Hs].
  rewrite Ha, (IH Hs). reflexivity.
Qed.

Lemma split_at_sep (c : ascii) (l r : string) :
  contains c l = false ->
  split c (l +:+ String c r) = l :: split c r.
Proof.
  induction l as [| a l IH]; simpl; intros H.
  - rewrite Ascii.eqb_refl. reflexivity.
  - apply orb_false_elim in H as [Ha Hl].
    rewrite Ha, (IH Hl). reflexivity.
Qed.

Lemma join_with_split (c : ascii) (s : string) :
  join_with c (split c s) = s.
Proof.
  induction s as [| a s IH]; simpl; [reflexivity |].
  destruct (Ascii.eqb_spec a c) as [-> | Hne].
  - pose proof (split_nonempty c s) as Hn.
    destruct (split c s) as [| w ws]; [contradiction |].
    simpl in *. rewrite IH. reflexivity.
  - pose proof (split_nonempty c s) as Hn.
    destruct (split c s) as [| w ws]; [contradiction |].
    destruct ws as [| w' ws]; simpl in *; rewrite <- IH; reflexivity.
Qed.

(** ** The key-value codec *)

Lemma app_assoc_string (s1 s2 s3 : string) :
  (s1 +:+ s2) +:+ s3 = s1 +:+ (s2 +:+ s3).
Proof. induction s1 as [| a s1 IH]; simpl; [| rewrite IH]; reflexivity. Qed.

Lemma seqToKV_kv_text (pairs : list (string * string)) (strict : bool) :
  Forall (fun p => contains LF (fst p) = false /\
                   contains ":" (fst p) = false /\
                   contains LF (snd p) = false) pairs ->
  oidutil.seqToKV pairs strict = Return (kv_text pairs).
Proof.
  induction 1 as [| [k v] rest (Hk1 & Hk2 & Hv) _ IH]; [reflexivity |].
  simpl in *. rewrite Hk1, Hk2, Hv, IH. simpl.
  unfold kv_text, kv_line. simpl. f_equal.
  rewrite !app_assoc_string. reflexivity.
Qed.

Lemma kv_line_no_newline (p : string * string) :
  kv_safe p -> contains LF (kv_line p) = false.
Proof.
  intros (Hk & _ & Hv & _). unfold kv_line.
  rewrite !contains_app, Hk, Hv. reflexivity.
Qed.

Lemma split_kv_line (p : string * string) :
  kv_safe p -> split ":" (kv_line p) = [fst p; snd p].
Proof.
  intros (_ & Hk & _ & Hv). unfold kv_line.
  change (":" +:+ snd p) with (String ":" (snd p)).
  rewrite (split_at_sep _ _ _ Hk), (split_without_sep _ _ Hv). reflexivity.
Qed.

Lemma kv_line_not_empty (p : string * string) : kv_line p <> "".
Proof.
  destruct p as [[| a k] v]; unfold kv_line; simpl; discriminate.
Qed.

Lemma split_kv_text (pairs : list (string * string)) :
  Forall kv_safe pairs ->
  split LF (kv_text pairs) = map kv_line pairs ++ [""].
Proof.
  induction 1 as [| p rest Hp _ IH]; [reflexivity |].
  unfold kv_text in *. simpl.
  rewrite app_assoc_string. simpl.
  rewrite (split_at_sep _ _ _ (kv_line_no_newline p Hp)), IH. reflexivity.
Qed.

Lemma drop_trailing_empty_snoc (lines : list string) :
  oidutil.drop_trailing_empty (lines ++ [""]) = lines.
Proof.
  induction lines as [| l rest IH]; [reflexivity |].
  destruct rest as [| r rest]; [reflexivity |].
  change (oidutil.drop_trailing_empty ((l :: r :: rest) ++ [""]))
    with (l :: oidutil.drop_trailing_empty ((r :: rest) ++ [""])).
  rewrite IH. reflexivity.
Qed.

Lemma parse_kv_lines (strict : bool) (pairs : list (string * string)) :
  Forall kv_safe pairs ->
  oidutil.parse_lines strict (map kv_line pairs) = Return pairs.
Proof.
  induction 1 as [| p rest Hp _ IH]; [reflexivity |].
  simpl. pose proof (kv_line_not_empty p) as Hne.
  destruct (kv_line p) as [| a l] eqn:E; [contradiction |].
  rewrite <- E, (split_kv_line p Hp), IH. simpl.
  destruct p; reflexivity.
Qed.

(** The round-trip law of the codec: strict decoding of a strict encoding
    gives the pairs back. *)
Lemma kvToSeq_seqToKV (pairs : list (string * string)) :
  Forall kv_safe pairs ->
  exists text,
    oidutil.seqToKV pairs true = Return text /\
    oidutil.kvToSeq text true = Return pairs.
Proof.
  intros Hsafe. exists (kv_text pairs). split.
  - apply seqToKV_kv_text.
    eapply Forall_impl; [exact Hsafe |].
    intros p (H1 & H2 & H3 & _). auto.
  - unfold oidutil.kvToSeq.
    rewrite (split_kv_text _ Hsafe), drop_trailing_empty_snoc.
    apply parse_kv_lines, Hsafe.
Qed.

(** ** Base64 *)

Lemma b64_value_char (x : oidutil.sextet) :
  oidutil.b64_value (oidutil.b64_char x) = Return x.
Proof.
  destruct x as [[[[[[] []] []] []] []] []]; reflexivity.
Qed.

Lemma b64_char_not_pad (x : oidutil.sextet) :
  Ascii.eqb (oidutil.b64_char x) oidutil.b64_pad = false.
Proof.
  destruct x as [[[[[[] []] []] []] []] []]; reflexivity.
Qed.

Lemma b64_char_not_newline (x : oidutil.sextet) :
  Ascii.eqb (oidutil.b64_char x) LF = false.
Proof.
  destruct x as [[[[[[] []] []] []] []] []]; reflexivity.
Qed.

Lemma b64_char_not_colon (x : oidutil.sextet) :
  Ascii.eqb (oidutil.b64_char x) ":" = false.
Proof.
  destruct x as [[[[[[] []] []] []] []] []]; reflexivity.
Qed.

(** Induction on a byte string three bytes at a time. *)
Lemma string_triples_ind (P : string -> Prop) :
  P "" ->
  (forall a, P (String a "")) ->
  (forall a b, P (String a (String b ""))) ->
  (forall a b c rest, P rest -> P (String a (String b (String c rest)))) ->
  forall s, P s.
Proof.
  intros H0 H1 H2 H3 s.
  enough (P s /\ (forall a, P (String a s)) /\
          (forall a b, P (String a (String b s)))) as [Hs _] by exact Hs.
  induction s as [| c s (IH0 & IH1 & IH2)].
  - auto.
  - split; [apply IH1 |]. split; [intros a; apply IH2 |].
    intros a b. apply H3, IH0.
Qed.

Lemma toBase64_not_empty (a : ascii) (s : string) :
  oidutil.toBase64 (String a s) <> "".
Proof.
  destruct a as [a0 a1 a2 a3 a4 a5 a6 a7].
  destruct s as [| [b0 b1 b2 b3 b4 b5 b6 b7] [| [c0 c1 c2 c3 c4 c5 c6 c7] r]];
    discriminate.
Qed.

Lemma fromBase64_last (c1 c2 c3 c4 : ascii) :
  Ascii.eqb c4 oidutil.b64_pad = false ->
  oidutil.fromBase64 (String c1 (String c2 (String c3 (String c4 ""))))
  = (x1 <- oidutil.b64_value c1 ;;
     x2 <- oidutil.b64_value c2 ;;
     x3 <- oidutil.b64_value c3 ;;
     x4 <- oidutil.b64_value c4 ;;
     Return (oidutil.b64_group 3 x1 x2 x3 x4)).
Proof. intros H. cbn [oidutil.fromBase64]. rewrite H. reflexivity. Qed.

Lemma fromBase64_more (c1 c2 c3 c4 : ascii) (rest : string) :
  rest <> "" ->
  oidutil.fromBase64 (String c1 (String c2 (String c3 (String c4 rest))))
  = (x1 <- oidutil.b64_value c1 ;;
     x2 <- oidutil.b64_value c2 ;;
     x3 <- oidutil.b64_value c3 ;;
     x4 <- oidutil.b64_value c4 ;;
     tail <- oidutil.fromBase64 rest ;;
     Return (oidutil.b64_group 3 x1 x2 x3 x4 +:+ tail)).
Proof. intros H. destruct rest; [contradiction | reflexivity]. Qed.

(** Decoding an encoding gives the bytes back. *)
Lemma fromBase64_toBase64 (s : string) :
  oidutil.fromBase64 (oidutil.toBase64 s) = Return s.
Proof.
  induction s as [| a | a b | a b c rest IH] using string_triples_ind.
  - reflexivity.
  - destruct a as [a0 a1 a2 a3 a4 a5 a6 a7].
    cbn [oidutil.toBase64 oidutil.fromBase64].
    rewrite !b64_value_char. reflexivity.
  - destruct a as [a0 a1 a2 a3 a4 a5 a6 a7].
    destruct b as [b0 b1 b2 b3 b4 b5 b6 b7].
    cbn [oidutil.toBase64 oidutil.fromBase64].
    rewrite !b64_value_char. cbn [bind].
    rewrite b64_char_not_pad. reflexivity.
  - destruct a as [a0 a1 a2 a3 a4 a5 a6 a7].
    destruct b as [b0 b1 b2 b3 b4 b5 b6 b7].
    destruct c as [c0 c1 c2 c3 c4 c5 c6 c7].
    cbn [oidutil.toBase64].
    destruct rest as [| d rest].
    + rewrite fromBase64_last by apply b64_char_not_pad.
      rewrite !b64_value_char. reflexivity.
    + rewrite fromBase64_more by apply toBase64_not_empty.
      rewrite !b64_value_char. cbn [bind]. rewrite IH. reflexivity.
Qed.

Lemma toBase64_charset (c : ascii) (s : string) :
  (forall x, Ascii.eqb (oidutil.b64_char x) c = false) ->
  Ascii.eqb oidutil.b64_pad c = false ->
  contains c (oidutil.toBase64 s) = false.
Proof.
  intros Hc Hpad.
  induction s as [| a | a b | a b d rest IH] using string_triples_ind.
  - reflexivity.
  - destruct a as [a0 a1 a2 a3 a4 a5 a6 a7].
    cbn [oidutil.toBase64 contains]. rewrite !Hc, Hpad. reflexivity.
  - destruct a as [a0 a1 a2 a3 a4 a5 a6 a7].
    destruct b as [b0 b1 b2 b3 b4 b5 b6 b7].
    cbn [oidutil.toBase64 contains]. rewrite !Hc, Hpad. reflexivity.
  - destruct a as [a0 a1 a2 a3 a4 a5 a6 a7].
    destruct b as [b0 b1 b2 b3 b4 b5 b6 b7].
    destruct d as [d0 d1 d2 d3 d4 d5 d6 d7].
    cbn [oidutil.toBase64 contains]. rewrite !Hc, IH. reflexivity.
Qed.

Lemma toBase64_no_newline (s : string) :
  contains LF (oidutil.toBase64 s) = false.
Proof.
  apply toBase64_charset; [apply b64_char_not_newline | reflexivity].
Qed.

Lemma toBase64_no_colon (s : string) :
  contains ":" (oidutil.toBase64 s) = false.
Proof.
  apply toBase64_charset; [apply b64_char_not_colon | reflexivity].
Qed.

(** ** Decimal strings: [str] and [int] *)

Lemma is_digit_not_space (a : ascii) :
  is_digit a = true -> is_space a = false.
Proof.
  destruct a as [[] [] [] [] [] [] [] []]; try discriminate; reflexivity.
Qed.

Lemma is_digit_eqb (a c : ascii) :
  is_digit a = true -> is_digit c = false -> Ascii.eqb a c = false.
Proof.
  intros Ha Hc. destruct (Ascii.eqb_spec a c) as [-> | _]; [| reflexivity].
  congruence.
Qed.

Lemma string_of_uint_digits (d : uint) :
  all_digits (NilEmpty.string_of_uint d) = true.
Proof. induction d; simpl; auto. Qed.

Lemma string_of_uint_not_empty (d : uint) :
  d <> Nil -> NilEmpty.string_of_uint d <> "".
Proof. destruct d; [contradiction | discriminate ..]. Qed.

Lemma all_digits_contains (c : ascii) (s : string) :
  is_digit c = false -> all_digits s = true -> contains c s = false.
Proof.
  intros Hc. induction s as [| a s IH]; simpl; [reflexivity |].
  intros H. apply andb_prop in H as [Ha Hs].
  rewrite (is_digit_eqb a c Ha Hc), (IH Hs). reflexivity.
Qed.

Lemma all_digits_rstrip (s : string) :
  all_digits s = true -> rstrip s = s.
Proof.
  induction s as [| a s IH]; simpl; [reflexivity |].
  intros H. apply andb_prop in H as [Ha Hs].
  rewrite (IH Hs), (is_digit_not_space a Ha).
  destruct s; reflexivity.
Qed.

Lemma all_digits_strip (s : string) :
  all_digits s = true -> strip s = s.
Proof.
  intros H. unfold strip.
  destruct s as [| a s]; [reflexivity |].
  simpl in H. apply andb_prop in H as [Ha Hs].
  simpl lstrip. rewrite (is_digit_not_space a Ha).
  apply all_digits_rstrip. simpl. rewrite Ha, Hs. reflexivity.
Qed.

Lemma int_digits_of_uint (s : string) (d : uint) :
  d <> Nil ->
  int_digits s (NilEmpty.string_of_uint d) = Return (Z.of_uint d).
Proof.
  intros Hd. unfold int_digits.
  pose proof (string_of_uint_not_empty d Hd) as Hne.
  destruct (NilEmpty.string_of_uint d) eqn:E; [contradiction |].
  rewrite <- E, NilEmpty.usu. reflexivity.
Qed.

Lemma int_of_digits (s : string) :
  all_digits s = true -> int s = int_digits s s.
Proof.
  intros H. unfold int. rewrite (all_digits_strip s H).
  destruct s as [| a s]; [reflexivity |].
  simpl in H. apply andb_prop in H as [Ha _].
  destruct a as [[] [] [] [] [] [] [] []]; try discriminate Ha; reflexivity.
Qed.

Lemma Z_of_uint_to_uint (p : positive) :
  Z.of_uint (Pos.to_uint p) = Z.pos p.
Proof. unfold Z.of_uint. rewrite DecimalPos.Unsigned.of_to. reflexivity. Qed.

(** Parsing the decimal rendering of an integer gives it back. *)
Lemma int_str (z : Z) : int (str z) = Return z.
Proof.
  destruct z as [| p | p]; [reflexivity | |].
  - unfold str. simpl.
    rewrite int_of_digits by apply string_of_uint_digits.
    rewrite int_digits_of_uint by apply DecimalPos.Unsigned.to_uint_nonnil.
    rewrite Z_of_uint_to_uint. reflexivity.
  - unfold str. simpl. unfold int, strip. simpl lstrip.
    pose proof (string_of_uint_digits (Pos.to_uint p)) as Hd.
    pose proof (string_of_uint_not_empty _
                  (DecimalPos.Unsigned.to_uint_nonnil p)) as Hne.
    simpl rstrip. rewrite (all_digits_rstrip _ Hd).
    destruct (NilEmpty.string_of_uint (Pos.to_uint p)) eqn:E;
      [contradiction |].
    rewrite <- E.
    rewrite int_digits_of_uint by apply DecimalPos.Unsigned.to_uint_nonnil.
    rewrite Z_of_uint_to_uint. reflexivity.
Qed.

Lemma str_charset (c : ascii) (z : Z) :
  is_digit c = false -> Ascii.eqb "-" c = false ->
  contains c (str z) = false.
Proof.
  intros Hc Hm. unfold str.
  destruct z as [| p | p].
  - change (Ascii.eqb "0" c || false = false).
    rewrite (is_digit_eqb "0" c eq_refl Hc). reflexivity.
  - apply all_digits_contains; [exact Hc | apply string_of_uint_digits].
  - change (Ascii.eqb "-" c
            || contains c (NilEmpty.string_of_uint (Pos.to_uint p)) = false).
    rewrite Hm. apply all_digits_contains;
      [exact Hc | apply string_of_uint_digits].
Qed.

(** ** Serialization *)

Lemma serialize_data_size (a : Association.t) :
  exists data,
    Association.serialize_data a = Return data /\
    size data = length Association.assoc_keys /\
    dom data = list_to_set Association.assoc_keys.
Proof.
  eexists. split; [reflexivity |]. split.
  - vm_compute. reflexivity.
  - rewrite !dom_insert_L, dom_empty_L. simpl. set_solver.
Qed.

Lemma serialize_pairs_eq (a : Association.t) :
  Association.serialize_pairs a = Return (Association.field_pairs a).
Proof.
  unfold Association.serialize_pairs.
  destruct (serialize_data_size a) as (data & Hdata & Hsize & _).
  rewrite Hdata. cbn [bind]. rewrite Hsize, Nat.eqb_refl. cbn [negb].
  unfold Association.serialize_data in Hdata. simpl in Hdata.
  injection Hdata as <-. reflexivity.
Qed.

Lemma serialize_eq (a : Association.t) :
  Association.serialize a
  = oidutil.seqToKV (Association.field_pairs a) true.
Proof.
  unfold Association.serialize. rewrite serialize_pairs_eq. reflexivity.
Qed.

Lemma field_pairs_encodable (a : Association.t) :
  contains LF (Association.handle a) = false ->
  contains LF (Association.assoc_type a) = false ->
  Forall (fun p => contains LF (fst p) = false /\
                   contains ":" (fst p) = false /\
                   contains LF (snd p) = false) (Association.field_pairs a).
Proof.
  intros Hh Ht. unfold Association.field_pairs.
  repeat apply Forall_cons_2; try apply Forall_nil_2;
    (split; [reflexivity |]); (split; [reflexivity |]); cbn [snd].
  - reflexivity.
  - exact Hh.
  - apply toBase64_no_newline.
  - apply str_charset; reflexivity.
  - apply str_charset; reflexivity.
  - exact Ht.
Qed.

Lemma field_pairs_safe (a : Association.t) :
  contains LF (Association.handle a) = false ->
  contains ":" (Association.handle a) = false ->
  Association.assoc_type a = "HMAC-SHA1" ->
  Forall kv_safe (Association.field_pairs a).
Proof.
  intros Hh1 Hh2 Ht. unfold Association.field_pairs, kv_safe. rewrite Ht.
  repeat apply Forall_cons_2; try apply Forall_nil_2; cbn [fst snd];
    (split; [reflexivity |]); (split; [reflexivity |]).
  - split; reflexivity.
  - split; assumption.
  - split; [apply toBase64_no_newline | apply toBase64_no_colon].
  - split; apply str_charset; reflexivity.
  - split; apply str_charset; reflexivity.
  - split; reflexivity.
Qed.

(** C6: [serialize] builds the dictionary with exactly the six recognised
    keys, so its assertion holds; it collects the six pairs [version]
    (["2"]), [handle], [secret] (base64), [issued] and [lifetime] (decimal)
    and [assoc_type] in that order and hands them to the strict encoder;
    the result is one [key:value] line per pair in that order, or
    [InvalidCharacterError] when the handle or the type has a newline;
    it is never [AssertionError]. *)
Theorem C6_serialize_six_pairs_in_order (a : Association.t) :
  let pairs :=
    [("version", "2");
     ("handle", Association.handle a);
     ("secret", oidutil.toBase64 (Association.secret a));
     ("issued", str (Association.issued a));
     ("lifetime", str (Association.lifetime a));
     ("assoc_type", Association.assoc_type a)] in
  (exists data,
     Association.serialize_data a = Return data /\
     size data = length Association.assoc_keys /\
     dom data = list_to_set Association.assoc_keys) /\
  Association.serialize_pairs a = Return pairs /\
  map fst pairs = Association.assoc_keys /\
  Association.serialize a = oidutil.seqToKV pairs true /\
  Association.serialize a
  = (if contains LF (Association.handle a)
        || contains LF (Association.assoc_type a)
     then Raise InvalidCharacterError
     else Return
       ("version:2" +:+ String LF
       ("handle:" +:+ Association.handle a +:+ String LF
       ("secret:" +:+ oidutil.toBase64 (Association.secret a) +:+ String LF
       ("issued:" +:+ str (Association.issued a) +:+ String LF
       ("lifetime:" +:+ str (Association.lifetime a) +:+ String LF
       ("assoc_type:" +:+ Association.assoc_type a +:+ String LF ""))))))) /\
  Association.serialize a <> Raise AssertionError.
Proof.
  intros pairs.
  assert (Hser :
    Association.serialize a
    = (if contains LF (Association.handle a)
          || contains LF (Association.assoc_type a)
       then Raise InvalidCharacterError
       else Return (kv_text pairs))).
  { rewrite serialize_eq.
    destruct (contains LF (Association.handle a)) eqn:Hh.
    { unfold Association.field_pairs. cbn [oidutil.seqToKV].
      rewrite Hh. reflexivity. }
    destruct (contains LF (Association.assoc_type a)) eqn:Ht.
    { unfold Association.field_pairs. cbn [oidutil.seqToKV].
      rewrite Hh, Ht, toBase64_no_newline.
      rewrite !(str_charset LF) by reflexivity. reflexivity. }
    apply seqToKV_kv_text, field_pairs_encodable; assumption. }
  split; [apply serialize_data_size |].
  split; [apply serialize_pairs_eq |].
  split; [reflexivity |].
  split; [apply serialize_eq |].
  split.
  - rewrite Hser. destruct (_ || _); [reflexivity |].
    f_equal. unfold kv_text, kv_line, pairs. cbn [map join fst snd].
    rewrite !app_assoc_string. reflexivity.
  - rewrite Hser. destruct (_ || _); discriminate.
Qed.

(** ** The round trip *)

Lemma eq_refl_assoc (a : Association.t) : Association.__eq__ a a = true.
Proof.
  unfold Association.__eq__.
  rewrite !String.eqb_refl, !Z.eqb_refl. reflexivity.
Qed.

Lemma deserialize_field_pairs (a : Association.t) (text : string) :
  Association.assoc_type a = "HMAC-SHA1" ->
  oidutil.kvToSeq text true = Return (Association.field_pairs a) ->
  Association.deserialize text = Return a.
Proof.
  intros Ht Hdec. unfold Association.deserialize.
  change (Association.lookup_global "oidutil") with (Return tt).
  cbn [bind]. rewrite Hdec. cbn [bind].
  destruct (decide (map fst (Association.field_pairs a)
                    = Association.assoc_keys)) as [_ | Hne];
    [| exfalso; apply Hne; reflexivity].
  unfold Association.field_pairs. cbn [map snd].
  change (negb (String.eqb "2" "2")) with false. cbv iota.
  rewrite !int_str. cbn [bind].
  rewrite fromBase64_toBase64. cbn [bind].
  unfold Association.__init__. rewrite Ht. simpl.
  destruct a; simpl in *; subst; reflexivity.
Qed.

(** C1: for every association the constructor returns whose handle has
    neither newline nor colon (the secret is any byte string, the times
    are any integers, the type is the one the constructor accepts),
    [serialize] succeeds and [deserialize] of its text succeeds with an
    association equal to the first one in all five fields. *)
Theorem C1_deserialize_serialize_roundtrip
    (h s : string) (i l : Z) (ty : string) (a : Association.t) :
  Association.__init__ h s i l ty = Return a ->
  contains LF h = false ->
  contains ":" h = false ->
  exists text a',
    Association.serialize a = Return text /\
    Association.deserialize text = Return a' /\
    Association.__eq__ a' a = true /\
    Association.handle a' = h /\ Association.secret a' = s /\
    Association.issued a' = i /\ Association.lifetime a' = l /\
    Association.assoc_type a' = ty.
Proof.
  intros Hinit Hnl Hcolon.
  unfold Association.__init__ in Hinit.
  destruct (String.eqb_spec ty "HMAC-SHA1") as [-> | Hne];
    [| discriminate Hinit].
  simpl in Hinit. injection Hinit as <-.
  set (a := Association.mk h s i l "HMAC-SHA1").
  assert (Hsafe : Forall kv_safe (Association.field_pairs a))
    by (apply field_pairs_safe; [exact Hnl | exact Hcolon | reflexivity]).
  destruct (kvToSeq_seqToKV _ Hsafe) as (text & Henc & Hdec).
  exists text, a. split; [rewrite serialize_eq; exact Henc |].
  split; [apply deserialize_field_pairs; [reflexivity | exact Hdec] |].
  split; [apply eq_refl_assoc |].
  repeat split.
Qed.

Lemma C1_roundtrip_witness :
  let a := Association.mk "h1" "secret" 1000000000 3600 "HMAC-SHA1" in
  exists text a',
    Association.serialize a = Return text /\
    Association.deserialize text = Return a' /\
    Association.__eq__ a' a = true /\
    Association.handle a' = "h1" /\ Association.secret a' = "secret" /\
    Association.issued a' = 1000000000%Z /\ Association.lifetime a' = 3600%Z /\
    Association.assoc_type a' = "HMAC-SHA1".
Proof.
  intros a.
  apply (C1_deserialize_serialize_roundtrip
           "h1" "secret" 1000000000 3600 "HMAC-SHA1" a);
    reflexivity.
Defined.

(** The example of the spec: handle ["h1"], a secret of 16 zero bytes,
    issued at 1000000000 for 3600 seconds. *)
Example serialize_spec_example :
  Association.serialize
    (Association.mk "h1" (string_of_list_ascii (repeat Ascii.zero 16))
       1000000000 3600 "HMAC-SHA1")
  = Return
      ("version:2" +:+ String LF
      ("handle:h1" +:+ String LF
      ("secret:AAAAAAAAAAAAAAAAAAAAAA==" +:+ String LF
      ("issued:1000000000" +:+ String LF
      ("lifetime:3600" +:+ String LF
      ("assoc_type:HMAC-SHA1" +:+ String LF "")))))).
Proof. vm_compute. reflexivity. Qed.

(** Why the handle of C1 must be free of colons: the encoder accepts a
    colon in a value, and the strict decoder then sees a line with two
    colons. *)
Example roundtrip_handle_with_colon :
  exists text,
    Association.serialize (Association.mk "a:b" "" 0 0 "HMAC-SHA1")
    = Return text /\
    Association.deserialize text = Raise MalformedLineError.
Proof. eexists. split; vm_compute; reflexivity. Qed.

(** ** Reordered lines *)

Lemma kvToSeq_kv_text (pairs : list (string * string)) :
  Forall kv_safe pairs ->
  oidutil.kvToSeq (kv_text pairs) true = Return pairs.
Proof.
  intros Hsafe. unfold oidutil.kvToSeq.
  rewrite (split_kv_text _ Hsafe), drop_trailing_empty_snoc.
  apply parse_kv_lines, Hsafe.
Qed.

Lemma join_with_kv_lines (pairs : list (string * string)) :
  join_with LF (map kv_line pairs ++ [""]) = kv_text pairs.
Proof.
  induction pairs as [| p rest IH]; [reflexivity |].
  unfold kv_text in *. cbn [map join app].
  rewrite app_assoc_string, <- IH.
  destruct rest; reflexivity.
Qed.

Lemma map_lookup_Some {A B : Type} (f : A -> B) (l : list A) (i : nat) (x : A) :
  l !! i = Some x -> map f l !! i = Some (f x).
Proof.
  revert i. induction l as [| y l IH]; intros [| i] H; try discriminate.
  - injection H as ->. reflexivity.
  - apply (IH i H).
Qed.

Lemma map_list_insert {A B : Type} (f : A -> B) (l : list A) (i : nat) (x : A) :
  map f (<[i := x]> l) = <[i := f x]> (map f l).
Proof.
  revert i. induction l as [| y l IH]; intros [| i]; try reflexivity.
  simpl. f_equal. apply IH.
Qed.

Lemma swap_lines_kv_text
    (pairs : list (string * string)) (i j : nat) (pi pj : string * string) :
  Forall kv_safe pairs ->
  pairs !! i = Some pi -> pairs !! j = Some pj ->
  Association.swap_lines i j (kv_text pairs)
  = kv_text (<[i := pj]> (<[j := pi]> pairs)).
Proof.
  intros Hsafe Hi Hj. unfold Association.swap_lines.
  rewrite (split_kv_text _ Hsafe).
  assert (Hli : (map kv_line pairs ++ [""]) !! i = Some (kv_line pi)).
  { apply lookup_app_l_Some, map_lookup_Some, Hi. }
  assert (Hlj : (map kv_line pairs ++ [""]) !! j = Some (kv_line pj)).
  { apply lookup_app_l_Some, map_lookup_Some, Hj. }
  rewrite Hli, Hlj.
  apply lookup_lt_Some in Hi, Hj.
  rewrite insert_app_l by (rewrite length_map; exact Hj).
  rewrite insert_app_l by (rewrite length_insert, length_map; exact Hi).
  rewrite <- !map_list_insert.
  apply join_with_kv_lines.
Qed.

Lemma assoc_keys_NoDup : NoDup Association.assoc_keys.
Proof.
  apply (bool_decide_unpack _). vm_compute. exact I.
Qed.

Lemma swapped_keys_differ
    (pairs : list (string * string)) (i j : nat) (pi pj : string * string) :
  map fst pairs = Association.assoc_keys ->
  pairs !! i = Some pi -> pairs !! j = Some pj -> i <> j ->
  map fst (<[i := pj]> (<[j := pi]> pairs)) <> Association.assoc_keys.
Proof.
  intros Hkeys Hi Hj Hij Heq.
  pose proof (map_lookup_Some fst _ _ _ Hi) as Hki.
  pose proof (map_lookup_Some fst _ _ _ Hj) as Hkj.
  assert (Hki' : map fst (<[i := pj]> (<[j := pi]> pairs)) !! i
                 = Some (fst pj)).
  { apply map_lookup_Some, list_lookup_insert_eq.
    rewrite length_insert. apply lookup_lt_Some in Hi. exact Hi. }
  rewrite Heq in Hki'. rewrite Hkeys in Hki, Hkj.
  apply Hij. eapply NoDup_lookup; [apply assoc_keys_NoDup | | ]; eassumption.
Qed.

(** C4: when the strictly decoded keys are not the six expected ones in
    order, [deserialize] raises the [ValueError] for unexpected keys, with
    the keys it found.  In particular, for an association the constructor
    returns whose handle has neither newline nor colon, exchanging any two
    of the six lines of its serialized text (so also the [handle] and
    [secret] lines) makes [deserialize] raise that error. *)
Theorem C4_deserialize_unexpected_keys :
  (forall text pairs,
     oidutil.kvToSeq text true = Return pairs ->
     map fst pairs <> Association.assoc_keys ->
     Association.deserialize text
     = Raise (Association.unexpected_keys (map fst pairs))) /\
  (forall h s i l ty a,
     Association.__init__ h s i l ty = Return a ->
     contains LF h = false -> contains ":" h = false ->
     exists text,
       Association.serialize a = Return text /\
       Association.deserialize
         (Association.swap_lines 1 2 text)
       = Raise (Association.unexpected_keys
                  ["version"; "secret"; "handle"; "issued"; "lifetime";
                   "assoc_type"]) /\
       forall m n, (m < n < 6)%nat ->
         exists keys,
           keys <> Association.assoc_keys /\
           Association.deserialize (Association.swap_lines m n text)
           = Raise (Association.unexpected_keys keys)).
Proof.
  split; [exact deserialize_bad_keys |].
  intros h s i l ty a Hinit Hnl Hcolon.
  unfold Association.__init__ in Hinit.
  destruct (String.eqb_spec ty "HMAC-SHA1") as [-> | Hne];
    [| discriminate Hinit].
  simpl in Hinit. injection Hinit as <-.
  set (a := Association.mk h s i l "HMAC-SHA1").
  assert (Hsafe : Forall kv_safe (Association.field_pairs a))
    by (apply field_pairs_safe; [exact Hnl | exact Hcolon | reflexivity]).
  assert (Hswap : forall m n pm pn,
    Association.field_pairs a !! m = Some pm ->
    Association.field_pairs a !! n = Some pn ->
    m <> n ->
    Association.deserialize
      (Association.swap_lines m n (kv_text (Association.field_pairs a)))
    = Raise (Association.unexpected_keys
               (map fst (<[m := pn]> (<[n := pm]> (Association.field_pairs a)))))
    /\ map fst (<[m := pn]> (<[n := pm]> (Association.field_pairs a)))
       <> Association.assoc_keys).
  { intros m n pm pn Hm Hn Hmn.
    pose proof (swapped_keys_differ (Association.field_pairs a)
                  m n pm pn eq_refl Hm Hn Hmn) as Hdiff.
    split; [| exact Hdiff].
    rewrite (swap_lines_kv_text _ m n pm pn Hsafe Hm Hn).
    apply deserialize_bad_keys; [| exact Hdiff].
    apply kvToSeq_kv_text.
    apply Forall_insert; [apply Forall_insert; [exact Hsafe |] |].
    - eapply Forall_lookup_1; [exact Hsafe | exact Hm].
    - eapply Forall_lookup_1; [exact Hsafe | exact Hn]. }
  exists (kv_text (Association.field_pairs a)).
  split.
  { rewrite serialize_eq. apply seqToKV_kv_text.
    eapply Forall_impl; [exact Hsafe |].
    intros p (H1 & H2 & H3 & _). auto. }
  split.
  { apply (Hswap 1%nat 2%nat _ _ eq_refl eq_refl). discriminate. }
  intros m n Hmn.
  destruct (lookup_lt_is_Some_2 (Association.field_pairs a) m) as [pm Hm];
    [simpl; lia |].
  destruct (lookup_lt_is_Some_2 (Association.field_pairs a) n) as [pn Hn];
    [simpl; lia |].
  destruct (Hswap m n pm pn Hm Hn) as [Hde Hdiff]; [lia |].
  eexists. split; [exact Hdiff | exact Hde].
Qed.

Lemma C4_deserialize_witness :
  let a := Association.mk "h1" "secret" 1000000000 3600 "HMAC-SHA1" in
  Association.deserialize ("handle:h1" +:+ String LF "")
  = Raise (Association.unexpected_keys ["handle"]) /\
  exists text,
    Association.serialize a = Return text /\
    Association.deserialize (Association.swap_lines 1 2 text)
    = Raise (Association.unexpected_keys
               ["version"; "secret"; "handle"; "issued"; "lifetime";
                "assoc_type"]).
Proof.
  intros a. split.
  - apply (proj1 C4_deserialize_unexpected_keys
             ("handle:h1" +:+ String LF "") [("handle", "h1")]).
    + reflexivity.
    + discriminate.
  - destruct (proj2 C4_deserialize_unexpected_keys
                "h1" "secret" 1000000000%Z 3600%Z "HMAC-SHA1" a
                eq_refl eq_refl eq_refl) as (text & Hser & Hswap & _).
    exists text. split; [exact Hser | exact Hswap].
Defined.

Lemma C8_signDict_witness :
  let a := Association.mk "h1" "secret" 1000000000 3600 "HMAC-SHA1" in
  let data : gmap string string := <["openid.mode" := "id_res"]> ∅ in
  Association.signDict a ["mode"] data Association.default_prefix
  = Raise (NameError "oidUtil").
Proof.
  intros a data.
  apply (C8_signDict_raises_NameError a ["mode"] data
           Association.default_prefix).
  intros f Hf. apply list_elem_of_singleton in Hf. subst f.
  exists "id_res". reflexivity.
Defined.

Lemma C9_signDict_witness :
  let a := Association.mk "h1" "secret" 1000000000 3600 "HMAC-SHA1" in
  let data : gmap string string := <["openid.mode" := "id_res"]> ∅ in
  exists f,
    f ∈ ["mode"; "identity"] /\
    data !! (Association.default_prefix +:+ f) = None /\
    Association.signDict a ["mode"; "identity"] data
      Association.default_prefix
    = Raise (KeyError (Association.default_prefix +:+ f)).
Proof.
  intros a data.
  apply (C9_signDict_missing_field a ["mode"; "identity"] data
           Association.default_prefix).
  exists "identity". split; [| reflexivity].
  right. left.
Defined.

(** ** HMAC-SHA1 and signing *)

(** The digest of ["abc"] (FIPS 180-1, appendix A). *)
Example sha1_abc :
  cryptutil.bytes_of_string (cryptutil.sha1 "abc")
  = [169; 153; 62; 54; 71; 6; 129; 106; 186; 62; 37; 113; 120; 80; 194;
     108; 156; 208; 216; 157]%Z.
Proof. vm_compute. reflexivity. Qed.

(** The second test case of RFC 2202. *)
Example hmacSha1_rfc2202_2 :
  cryptutil.bytes_of_string
    (cryptutil.hmacSha1 "Jefe" "what do ya want for nothing?")
  = [239; 252; 223; 106; 229; 235; 47; 162; 210; 116; 22; 213; 241; 132;
     223; 156; 37; 154; 124; 121]%Z.
Proof. vm_compute. reflexivity. Qed.

(** The sixth test case of RFC 2202: a key of 80 bytes [0xaa], longer
    than a block. *)
Example hmacSha1_rfc2202_6 :
  cryptutil.bytes_of_string
    (cryptutil.hmacSha1
       (string_of_list_ascii (repeat (ascii_of_nat 170) 80))
       "Test Using Larger Than Block-Size Key - Hash Key First")
  = [170; 74; 229; 225; 82; 114; 208; 14; 149; 112; 86; 55; 206; 138; 59;
     85; 237; 64; 33; 18]%Z.
Proof. vm_compute. reflexivity. Qed.

Lemma sign_eq (a : Association.t) (pairs : list (string * string)) :
  Association.sign a pairs
  = (kv <- oidutil.seqToKV pairs false ;;
     Return (cryptutil.hmacSha1 (Association.secret a) kv)).
Proof. reflexivity. Qed.

(** C7: the MAC that [sign] returns is a function of the secret and of
    the ordered pairs alone, so two calls with the same pairs under the
    same secret give the same bytes; and there are two pairs whose two
    orders give different MACs under one secret. *)
Theorem C7_sign_deterministic_and_order_sensitive :
  (forall a1 a2 pairs,
     Association.secret a1 = Association.secret a2 ->
     Association.sign a1 pairs = Association.sign a2 pairs) /\
  (exists a pairs pairs' mac mac',
     (2 <= length pairs)%nat /\
     pairs ≡ₚ pairs' /\
     Association.sign a pairs = Return mac /\
     Association.sign a pairs' = Return mac' /\
     mac <> mac').
Proof.
  split.
  - intros a1 a2 pairs Hsecret. rewrite !sign_eq, Hsecret. reflexivity.
  - exists (Association.mk "h1" (string_of_list_ascii (repeat Ascii.zero 16))
              1000000000 3600 "HMAC-SHA1").
    exists [("mode", "id_res"); ("identity", "x")].
    exists [("identity", "x"); ("mode", "id_res")].
    eexists. eexists.
    split; [simpl; lia |].
    split; [apply perm_swap |].
    split; [vm_compute; reflexivity |].
    split; [vm_compute; reflexivity |].
    discriminate.
Qed.

Lemma C7_sign_witness :
  Association.sign (Association.mk "h1" "k" 0 0 "HMAC-SHA1") [("a", "1")]
  = Association.sign (Association.mk "h2" "k" 5 7 "HMAC-SHA1") [("a", "1")].
Proof.
  apply (proj1 C7_sign_deterministic_and_order_sensitive
           (Association.mk "h1" "k" 0 0 "HMAC-SHA1")
           (Association.mk "h2" "k" 5 7 "HMAC-SHA1")).
  reflexivity.
Defined.

(* ===================================================================== *)
(** * Further properties of the module                                    *)
(* ===================================================================== *)

(** ** Equality of associations *)



(** ** What deserialization accepts *)

Lemma deserialize_Return_inv (text : string) (a : Association.t) :
  Association.deserialize text = Return a ->
  exists ss ts ls,
    oidutil.kvToSeq text true
    = Return [("version", "2"); ("handle", Association.handle a);
              ("secret", ss); ("issued", ts); ("lifetime", ls);
              ("assoc_type", "HMAC-SHA1")] /\
    oidutil.fromBase64 ss = Return (Association.secret a) /\
    int ts = Return (Association.issued a) /\
    int ls = Return (Association.lifetime a) /\
    Association.assoc_type a = "HMAC-SHA1".
Proof.
  unfold Association.deserialize.
  change (Association.lookup_global "oidutil") with (Return tt).
  cbn [bind].
  destruct (oidutil.kvToSeq text true) as [pairs | e]; [| discriminate].
  cbn [bind].
  destruct (decide (map fst pairs = Association.assoc_keys)) as [Hk | _];
    [| discriminate].
  destruct pairs as [| [k1 v1] [| [k2 v2] [| [k3 v3] [| [k4 v4]
    [| [k5 v5] [| [k6 v6] [| p7 rest]]]]]]]; try discriminate Hk.
  injection Hk as -> -> -> -> -> ->. cbn [map snd].
  destruct (String.eqb_spec v1 "2") as [-> | _]; [| discriminate].
  cbn [negb].
  destruct (int v4) as [i |] eqn:Hi; [| discriminate]. cbn [bind].
  destruct (int v5) as [l |] eqn:Hl; [| discriminate]. cbn [bind].
  destruct (oidutil.fromBase64 v3) as [s |] eqn:Hs; [| discriminate].
  cbn [bind]. unfold Association.__init__.
  destruct (String.eqb_spec v6 "HMAC-SHA1") as [-> | _]; [| discriminate].
  cbn [negb]. intros [= <-]. exists v3, v4, v5.
  repeat split; assumption.
Qed.

Lemma deserialize_values
    (text v h ss ts ls ty : string) :
  oidutil.kvToSeq text true
  = Return [("version", v); ("handle", h); ("secret", ss); ("issued", ts);
            ("lifetime", ls); ("assoc_type", ty)] ->
  Association.deserialize text
  = (if negb (String.eqb v "2") then Raise (Association.unknown_version v)
     else
       issued <- int ts ;;
       lifetime <- int ls ;;
       secret <- oidutil.fromBase64 ss ;;
       Association.__init__ h secret issued lifetime ty).
Proof.
  intros Hdec. unfold Association.deserialize.
  change (Association.lookup_global "oidutil") with (Return tt).
  cbn [bind]. rewrite Hdec. cbn [bind map fst snd].
  destruct (decide (_ = Association.assoc_keys)) as [_ | Hne];
    [reflexivity | exfalso; apply Hne; reflexivity].
Qed.

(** X2: every way of building an association gives one of type
    ["HMAC-SHA1"]: the primary constructor, [fromExpiresIn] and
    [deserialize] never return an instance of another type, and the two
    constructors can fail in one way only, with the [ValueError] for an
    unsupported type. *)
Theorem X2_constructed_type_is_hmac_sha1 (a : Association.t) :
  (forall h s i l ty,
     Association.__init__ h s i l ty = Return a ->
     Association.assoc_type a = "HMAC-SHA1") /\
  (forall now e h s ty,
     Association.fromExpiresIn now e h s ty = Return a ->
     Association.assoc_type a = "HMAC-SHA1") /\
  (forall text,
     Association.deserialize text = Return a ->
     Association.assoc_type a = "HMAC-SHA1") /\
  (forall now e h s ty err,
     Association.fromExpiresIn now e h s ty = Raise err ->
     err = Association.unsupported_type /\ ty <> "HMAC-SHA1").
Proof.
  assert (Hinit : forall h s i l ty,
    Association.__init__ h s i l ty = Return a ->
    Association.assoc_type a = "HMAC-SHA1").
  { intros h s i l ty. unfold Association.__init__.
    destruct (String.eqb_spec ty "HMAC-SHA1") as [-> | _];
      [| discriminate].
    intros [= <-]. reflexivity. }
  split; [exact Hinit |]. split; [| split].
  - intros now e h s ty. apply Hinit.
  - intros text H.
    destruct (deserialize_Return_inv text a H) as (? & ? & ? & _ & _ & _ & _ & Ht).
    exact Ht.
  - intros now e h s ty err.
    unfold Association.fromExpiresIn, Association.__init__. simpl.
    destruct (String.eqb_spec ty "HMAC-SHA1") as [-> | Hne];
      [discriminate |].
    intros [= <-]. split; [reflexivity | exact Hne].
Qed.

Lemma X2_constructed_type_witness :
  Association.assoc_type (Association.mk "h" "s" 1000 60 "HMAC-SHA1")
  = "HMAC-SHA1".
Proof.
  pose proof (X2_constructed_type_is_hmac_sha1
                (Association.mk "h" "s" 1000 60 "HMAC-SHA1"))
    as (_ & Hfrom & _ & _).
  apply (Hfrom 1000%Z 60%Z "h" "s" "HMAC-SHA1"). reflexivity.
Defined.

(** ** Expiry of a fresh association *)

(** X3: an association made by [fromExpiresIn] with [expires_in = e]
    reports, [d] seconds after its creation, [max(0, e - d)] seconds left,
    whatever the clock reading at creation was: [max(0, e)] at once, and 0
    from [e] seconds on. *)
Theorem X3_fresh_association_expiry
    (now e d : Z) (h s ty : string) (a : Association.t) :
  Association.fromExpiresIn now e h s ty = Return a ->
  Association.getExpiresIn a (now + d) = Return (Z.max 0 (e - d)) /\
  Association.getExpiresIn a now = Return (Z.max 0 e) /\
  ((e <= d)%Z -> Association.getExpiresIn a (now + d) = Return 0%Z).
Proof.
  unfold Association.fromExpiresIn, Association.__init__. simpl.
  destruct (String.eqb ty "HMAC-SHA1"); [| discriminate].
  intros [= <-]. rewrite !getExpiresIn_eq. simpl.
  split; [f_equal; lia |]. split; [f_equal; lia |].
  intros Hd. f_equal. lia.
Qed.

Lemma X3_fresh_association_witness :
  let a := Association.mk "h" "s" 1000 3600 "HMAC-SHA1" in
  Association.getExpiresIn a (1000 + 100) = Return (Z.max 0 (3600 - 100)).
Proof.
  intros a.
  apply (X3_fresh_association_expiry 1000 3600 100 "h" "s" "HMAC-SHA1" a).
  reflexivity.
Defined.

(** X4: the expiry query gives 0 exactly when the clock has reached
    [issued + lifetime]; before that it gives the exact number of seconds
    up to that instant, a positive number; and once the clock has reached
    [issued] it never gives more than the lifetime. *)
Theorem X4_getExpiresIn_zero_iff_expired (a : Association.t) (now n : Z) :
  Association.getExpiresIn a now = Return n ->
  (n = 0%Z <-> (Association.issued a + Association.lifetime a <= now)%Z) /\
  ((now < Association.issued a + Association.lifetime a)%Z ->
   (0 < n)%Z /\ (now + n = Association.issued a + Association.lifetime a)%Z) /\
  ((Association.issued a <= now)%Z -> (n <= Z.max 0 (Association.lifetime a))%Z).
Proof.
  rewrite getExpiresIn_eq. intros [= <-].
  split; [lia |]. split; lia.
Qed.

Lemma X4_getExpiresIn_witness :
  (0 = 0 <-> 1000000000 + 3600 <= 1000003600)%Z.
Proof.
  apply (X4_getExpiresIn_zero_iff_expired
           (Association.mk "h1" "" 1000000000 3600 "HMAC-SHA1")
           1000003600 0).
  reflexivity.
Defined.

(** ** Deserialization, continued *)

(** X5: [deserialize] returns an association exactly when the strict
    decoding of the text is the six expected keys in order with version
    ["2"] and type ["HMAC-SHA1"], the issued and lifetime values parse as
    integers and the secret value decodes; the association then has the
    handle of the text verbatim, the parsed integers and the decoded
    secret. *)
Theorem X5_deserialize_success_iff (text : string) (a : Association.t) :
  Association.deserialize text = Return a <->
  exists ss ts ls,
    oidutil.kvToSeq text true
    = Return [("version", "2"); ("handle", Association.handle a);
              ("secret", ss); ("issued", ts); ("lifetime", ls);
              ("assoc_type", "HMAC-SHA1")] /\
    oidutil.fromBase64 ss = Return (Association.secret a) /\
    int ts = Return (Association.issued a) /\
    int ls = Return (Association.lifetime a) /\
    Association.assoc_type a = "HMAC-SHA1".
Proof.
  split; [apply deserialize_Return_inv |].
  intros (ss & ts & ls & Hdec & Hs & Hi & Hl & Ht).
  rewrite (deserialize_values _ _ _ _ _ _ _ Hdec).
  change (negb (String.eqb "2" "2")) with false. cbv iota.
  rewrite Hi, Hl, Hs. cbn [bind].
  destruct a; simpl in *; subst; reflexivity.
Qed.

Lemma X5_deserialize_success_witness :
  Association.deserialize
    ("version:2" +:+ String LF ("handle:h" +:+ String LF ("secret:AA==" +:+
     String LF ("issued: +7" +:+ String LF ("lifetime:060" +:+ String LF
     ("assoc_type:HMAC-SHA1" +:+ String LF ""))))))
  = Return (Association.mk "h" (String Ascii.zero "") 7 60 "HMAC-SHA1").
Proof.
  apply (proj2 (X5_deserialize_success_iff _ _)).
  exists "AA==", " +7", "060". repeat split.
Defined.

(** X6: once the keys and the version are accepted, [deserialize] fails
    with the error of the first step that fails, in the order: [int] of
    the issued value, [int] of the lifetime value, the base64 decoding of
    the secret, and last the constructor's check of the type, which raises
    the [ValueError] for an unsupported type. *)
Theorem X6_deserialize_value_errors
    (text h ss ts ls ty : string) :
  oidutil.kvToSeq text true
  = Return [("version", "2"); ("handle", h); ("secret", ss); ("issued", ts);
            ("lifetime", ls); ("assoc_type", ty)] ->
  (forall e, int ts = Raise e -> Association.deserialize text = Raise e) /\
  (forall i e, int ts = Return i -> int ls = Raise e ->
               Association.deserialize text = Raise e) /\
  (forall i l e, int ts = Return i -> int ls = Return l ->
                 oidutil.fromBase64 ss = Raise e ->
                 Association.deserialize text = Raise e) /\
  (forall i l s, int ts = Return i -> int ls = Return l ->
                 oidutil.fromBase64 ss = Return s ->
                 ty <> "HMAC-SHA1" ->
                 Association.deserialize text
                 = Raise Association.unsupported_type).
Proof.
  intros Hdec. rewrite (deserialize_values _ _ _ _ _ _ _ Hdec).
  change (negb (String.eqb "2" "2")) with false. cbv iota.
  split; [| split; [| split]].
  - intros e ->. reflexivity.
  - intros i e -> ->. reflexivity.
  - intros i l e -> -> ->. reflexivity.
  - intros i l s -> -> -> Hty. cbn [bind].
    unfold Association.__init__.
    apply String.eqb_neq in Hty. rewrite Hty. reflexivity.
Qed.

Lemma X6_deserialize_value_errors_witness :
  let blob (issued : string) :=
    "version:2" +:+ String LF ("handle:h" +:+ String LF ("secret:AA==" +:+
    String LF ("issued:" +:+ issued +:+ String LF ("lifetime:60" +:+
    String LF ("assoc_type:HMAC-SHA256" +:+ String LF ""))))) in
  Association.deserialize (blob "7") = Raise Association.unsupported_type /\
  Association.deserialize (blob "soon") = Raise (invalid_literal "soon").
Proof.
  intros blob. split.
  - destruct (X6_deserialize_value_errors (blob "7") "h" "AA==" "7" "60"
                "HMAC-SHA256" eq_refl) as (_ & _ & _ & Htype).
    apply (Htype 7%Z 60%Z (String Ascii.zero ""));
      [reflexivity | reflexivity | reflexivity | discriminate].
  - destruct (X6_deserialize_value_errors (blob "soon") "h" "AA==" "soon"
                "60" "HMAC-SHA256" eq_refl) as (Hissued & _).
    apply Hissued. reflexivity.
Defined.

(** ** Serialization is injective *)

Lemma serialize_Return (a : Association.t) (text : string) :
  Association.serialize a = Return text ->
  contains LF (Association.handle a) = false /\
  contains LF (Association.assoc_type a) = false /\
  text = kv_text (Association.field_pairs a).
Proof.
  rewrite serialize_eq.
  destruct (contains LF (Association.handle a)) eqn:Hh.
  { unfold Association.field_pairs. cbn [oidutil.seqToKV].
    rewrite Hh. discriminate. }
  destruct (contains LF (Association.assoc_type a)) eqn:Ht.
  { unfold Association.field_pairs. cbn [oidutil.seqToKV].
    rewrite Hh, Ht, toBase64_no_newline.
    rewrite !(str_charset LF) by reflexivity. discriminate. }
  rewrite (seqToKV_kv_text _ true (field_pairs_encodable a Hh Ht)).
  intros [= <-]. repeat split.
Qed.

Lemma split_text_lines (pairs : list (string * string)) :
  Forall (fun p => contains LF (kv_line p) = false) pairs ->
  split LF (kv_text pairs) = map kv_line pairs ++ [""].
Proof.
  induction 1 as [| p rest Hp _ IH]; [reflexivity |].
  unfold kv_text in *. simpl.
  rewrite app_assoc_string. simpl.
  rewrite (split_at_sep _ _ _ Hp), IH. reflexivity.
Qed.

Lemma field_lines_no_newline (a : Association.t) :
  contains LF (Association.handle a) = false ->
  contains LF (Association.assoc_type a) = false ->
  Forall (fun p => contains LF (kv_line p) = false)
         (Association.field_pairs a).
Proof.
  intros Hh Ht.
  eapply Forall_impl; [apply (field_pairs_encodable a Hh Ht) |].
  intros p (Hk & _ & Hv). unfold kv_line.
  rewrite !contains_app, Hk, Hv. reflexivity.
Qed.

Lemma toBase64_inj (s1 s2 : string) :
  oidutil.toBase64 s1 = oidutil.toBase64 s2 -> s1 = s2.
Proof.
  intros H. apply (f_equal oidutil.fromBase64) in H.
  rewrite !fromBase64_toBase64 in H. congruence.
Qed.

Lemma str_inj (z1 z2 : Z) : str z1 = str z2 -> z1 = z2.
Proof.
  intros H. apply (f_equal int) in H. rewrite !int_str in H. congruence.
Qed.

(** X7: [serialize] is injective: two associations that serialize to the
    same text agree on all five attributes (with the codec and base64 as
    modelled above).  No condition on colons in the handle is needed. *)
Theorem X7_serialize_injective (a b : Association.t) (text : string) :
  Association.serialize a = Return text ->
  Association.serialize b = Return text ->
  a = b /\ Association.__eq__ a b = true.
Proof.
  intros Ha Hb.
  destruct (serialize_Return a text Ha) as (Hah & Hat & Hta).
  destruct (serialize_Return b text Hb) as (Hbh & Hbt & Htb).
  assert (Hlines : map kv_line (Association.field_pairs a)
                   = map kv_line (Association.field_pairs b)).
  { apply (app_inv_tail [""]).
    rewrite <- (split_text_lines _ (field_lines_no_newline a Hah Hat)).
    rewrite <- (split_text_lines _ (field_lines_no_newline b Hbh Hbt)).
    congruence. }
  unfold Association.field_pairs, kv_line in Hlines. simpl in Hlines.
  injection Hlines as Hh Hs Hi Hl Ht.
  apply toBase64_inj in Hs. apply str_inj in Hi. apply str_inj in Hl.
  assert (Hab : a = b)
    by (destruct a, b; simpl in *; subst; reflexivity).
  split; [exact Hab |]. subst b. apply eq_refl_assoc.
Qed.

Lemma X7_serialize_injective_witness :
  let a := Association.mk "a:b" "k" 5 7 "HMAC-SHA1" in
  a = a /\ Association.__eq__ a a = true.
Proof.
  intros a.
  apply (X7_serialize_injective a a
           ("version:2" +:+ String LF ("handle:a:b" +:+ String LF
            ("secret:aw==" +:+ String LF ("issued:5" +:+ String LF
            ("lifetime:7" +:+ String LF
            ("assoc_type:HMAC-SHA1" +:+ String LF "")))))));
    vm_compute; reflexivity.
Defined.

(** ** [signDict]: which field is reported *)

(** X8: [signDict] looks the fields up in the order of the request and
    stops at the first one missing: when the fields before [f] are all in
    the dictionary and [f] is not, the [KeyError] carries [prefix + f],
    whatever comes after [f] and whichever association is used. *)
Theorem X8_signDict_reports_first_missing
    (a : Association.t) (before after : list string) (f : string)
    (data : gmap string string) (prefix : string) :
  (forall g, g ∈ before -> is_Some (data !! (prefix +:+ g))) ->
  data !! (prefix +:+ f) = None ->
  Association.signDict a (before ++ f :: after) data prefix
  = Raise (KeyError (prefix +:+ f)).
Proof.
  intros Hbefore Hf. unfold Association.signDict.
  enough (Hloop : Association.signDict_loop (before ++ f :: after) data prefix
                  = Raise (KeyError (prefix +:+ f)))
    by (rewrite Hloop; reflexivity).
  induction before as [| g before IH]; simpl.
  - rewrite Hf. reflexivity.
  - destruct (Hbefore g) as [v Hv]; [left |].
    rewrite Hv, IH; [reflexivity |].
    intros g' Hg'. apply Hbefore. right. exact Hg'.
Qed.

Lemma X8_signDict_witness :
  let a := Association.mk "h1" "secret" 1000000000 3600 "HMAC-SHA1" in
  let data : gmap string string := <["openid.mode" := "id_res"]> ∅ in
  Association.signDict a (["mode"] ++ "identity" :: ["return_to"]) data
    "openid."
  = Raise (KeyError ("openid." +:+ "identity")).
Proof.
  intros a data.
  apply (X8_signDict_reports_first_missing a ["mode"] ["return_to"]
           "identity" data "openid.").
  - intros g Hg. apply list_elem_of_singleton in Hg. subst g.
    exists "id_res". reflexivity.
  - reflexivity.
Defined.

(** ** What deserialization returns can be stored again *)

Lemma split_pieces_free (c : ascii) (s : string) :
  Forall (fun w => contains c w = false) (split c s).
Proof.
  induction s as [| a s IH]; simpl.
  - repeat constructor.
  - destruct (Ascii.eqb a c) eqn:Hac.
    + constructor; [reflexivity | exact IH].
    + destruct (split c s) as [| w ws]; [repeat constructor; simpl;
        rewrite Hac; reflexivity |].
      apply Forall_cons_1 in IH as [Hw Hws].
      constructor; [simpl; rewrite Hac, Hw; reflexivity | exact Hws].
Qed.

Lemma split_pieces_within (d c : ascii) (s : string) :
  contains d s = false ->
  Forall (fun w => contains d w = false) (split c s).
Proof.
  induction s as [| a s IH]; simpl; intros H.
  - repeat constructor.
  - apply orb_false_elim in H as [Had Hs]. specialize (IH Hs).
    destruct (Ascii.eqb a c).
    + constructor; [reflexivity | exact IH].
    + destruct (split c s) as [| w ws]; [repeat constructor; simpl;
        rewrite Had; reflexivity |].
      apply Forall_cons_1 in IH as [Hw Hws].
      constructor; [simpl; rewrite Had, Hw; reflexivity | exact Hws].
Qed.

Lemma drop_trailing_empty_Forall (P : string -> Prop) (lines : list string) :
  Forall P lines -> Forall P (oidutil.drop_trailing_empty lines).
Proof.
  induction 1 as [| l rest Hl Hrest IH]; [constructor |].
  destruct rest as [| r rest].
  - simpl. destruct l; [constructor | repeat constructor; exact Hl].
  - change (oidutil.drop_trailing_empty (l :: r :: rest))
      with (l :: oidutil.drop_trailing_empty (r :: rest)).
    constructor; assumption.
Qed.

Lemma parse_lines_safe
    (strict : bool) (lines : list string) (pairs : list (string * string)) :
  Forall (fun l => contains LF l = false) lines ->
  oidutil.parse_lines strict lines = Return pairs ->
  Forall kv_safe pairs.
Proof.
  intros Hlines. revert pairs.
  induction Hlines as [| l rest Hl _ IH]; intros pairs Hparse.
  - injection Hparse as <-. constructor.
  - destruct l as [| a l]; [exact (IH pairs Hparse) |].
    cbn [oidutil.parse_lines] in Hparse.
    pose proof (split_pieces_free ":" (String a l)) as Hfree.
    pose proof (split_pieces_within LF ":" (String a l) Hl) as Hin.
    destruct (split ":" (String a l)) as [| k [| v [| x ws]]].
    + destruct strict; [discriminate | exact (IH pairs Hparse)].
    + destruct strict; [discriminate | exact (IH pairs Hparse)].
    + destruct (oidutil.parse_lines strict rest) as [ps |];
        [| discriminate].
      cbn [bind] in Hparse. injection Hparse as <-.
      apply Forall_cons_1 in Hfree as [Hk Hfree].
      apply Forall_cons_1 in Hfree as [Hv _].
      apply Forall_cons_1 in Hin as [Hk' Hin].
      apply Forall_cons_1 in Hin as [Hv' _].
      constructor; [| apply IH; reflexivity].
      unfold kv_safe. simpl. auto.
    + destruct strict; [discriminate | exact (IH pairs Hparse)].
Qed.

Lemma kvToSeq_safe
    (text : string) (strict : bool) (pairs : list (string * string)) :
  oidutil.kvToSeq text strict = Return pairs -> Forall kv_safe pairs.
Proof.
  unfold oidutil.kvToSeq. apply parse_lines_safe.
  apply drop_trailing_empty_Forall, split_pieces_free.
Qed.

(** X9: every association that [deserialize] returns, from whatever text
    (blank lines, signs, leading zeros or spaces in the numbers), can be
    serialized, and deserializing that serialization gives the same
    association again (with the codec and base64 as modelled above). *)
Theorem X9_deserialized_association_roundtrips
    (text : string) (a : Association.t) :
  Association.deserialize text = Return a ->
  exists text',
    Association.serialize a = Return text' /\
    Association.deserialize text' = Return a.
Proof.
  intros Hde.
  destruct (deserialize_Return_inv text a Hde)
    as (ss & ts & ls & Hdec & _ & _ & _ & Hty).
  pose proof (kvToSeq_safe _ _ _ Hdec) as Hsafe.
  apply Forall_cons_1 in Hsafe as [_ Hsafe].
  apply Forall_cons_1 in Hsafe as [(_ & _ & Hnl & Hcolon) _].
  simpl in Hnl, Hcolon.
  assert (Hpairs : Forall kv_safe (Association.field_pairs a))
    by (apply field_pairs_safe; assumption).
  destruct (kvToSeq_seqToKV _ Hpairs) as (text' & Henc & Hdec').
  exists text'. split; [rewrite serialize_eq; exact Henc |].
  apply deserialize_field_pairs; assumption.
Qed.

Lemma X9_deserialized_witness :
  let a := Association.mk "h" (String Ascii.zero "") 7 60 "HMAC-SHA1" in
  exists text',
    Association.serialize a = Return text' /\
    Association.deserialize text' = Return a.
Proof.
  intros a.
  apply (X9_deserialized_association_roundtrips
           (String LF ("version:2" +:+ String LF ("handle:h" +:+ String LF
            ("secret:AA==" +:+ String LF ("issued: +7" +:+ String LF
            ("lifetime:060" +:+ String LF
            ("assoc_type:HMAC-SHA1" +:+ String LF ""))))))) a).
  vm_compute. reflexivity.
Defined.
